(** * examples/multiline_demo.py: the sample log emitter

    A shallow embedding of [generate_sample_logs] and of the script's
    [__main__] block, with the properties of the text they produce.

    Python strings are [string]s of [ascii] characters (the source file
    is pure ASCII with LF line ends), the process is a record holding
    the wall clock and the bytes written to standard output, and Python
    code is a function from the process state to a result or an
    exception together with the new state.  The text the script writes
    is studied on a standard output that takes every byte; its exit
    status is studied on one that can refuse a write. *)

From Stdlib Require Import Strings.String Strings.Ascii Lists.List.
From Stdlib Require Import Arith.PeanoNat Bool.Bool Numbers.DecimalString.
From Stdlib Require Import micromega.Lia.
Import ListNotations.
Open Scope string_scope.

(** ** Characters and text *)

Module Text.

Definition nl : ascii := "010"%char.
Definition newline : string := String nl "".
Definition dq : string := String "034"%char "".

Definition is_digit (c : ascii) : bool :=
  let n := nat_of_ascii c in ((48 <=? n) && (n <=? 57))%nat.

Definition is_lower (c : ascii) : bool :=
  let n := nat_of_ascii c in ((97 <=? n) && (n <=? 122))%nat.

Definition is_upper (c : ascii) : bool :=
  let n := nat_of_ascii c in ((65 <=? n) && (n <=? 90))%nat.

(** [\w] of Python's [re] on ASCII text. *)
Definition is_word (c : ascii) : bool :=
  is_lower c || is_upper c || is_digit c || Ascii.eqb c "_"%char.

Definition is_space (c : ascii) : bool := Ascii.eqb c " "%char.

(** [s.split("\n")]: never empty, the pieces joined by a newline give
    [s] back. *)
Fixpoint split_nl (s : string) : list string :=
  match s with
  | "" => [""]
  | String c r =>
      match split_nl r with
      | [] => [String c ""]
      | l :: ls => if Ascii.eqb c nl then "" :: l :: ls else String c l :: ls
      end
  end.

(** [s.splitlines()] on text whose only line end is LF: as [split_nl],
    but a final newline opens no further line. *)
Definition splitlines (s : string) : list string :=
  let ls := split_nl s in
  if last ls "x" =? "" then removelast ls else ls.

(** [sub in s]. *)
Fixpoint contains (sub s : string) : bool :=
  prefix sub s ||
  match s with
  | "" => false
  | String _ r => contains sub r
  end.

(** [s.startswith(p)] and [s.endswith(p)]. *)
Definition startswith (p s : string) : bool := prefix p s.

Fixpoint drop (n : nat) (s : string) : string :=
  match n, s with
  | O, _ => s
  | S _, "" => ""
  | S m, String _ r => drop m r
  end.

Definition endswith (p s : string) : bool :=
  (String.length p <=? String.length s)%nat
  && (drop (String.length s - String.length p) s =? p).

(** Number of leading blanks, and the line without them. *)
Fixpoint indent (s : string) : nat :=
  match s with
  | String c r => if is_space c then S (indent r) else O
  | "" => O
  end.

Definition lstrip (s : string) : string := drop (indent s) s.

(** The longest prefix of characters satisfying [p], and the rest. *)
Fixpoint span (p : ascii -> bool) (s : string) : string * string :=
  match s with
  | String c r =>
      if p c then let (a, b) := span p r in (String c a, b) else ("", s)
  | "" => ("", "")
  end.

(** [strip_prefix p s] is [Some r] when [s = p ++ r]. *)
Fixpoint strip_prefix (p s : string) : option string :=
  match p, s with
  | "", _ => Some s
  | String a p', String b s' =>
      if Ascii.eqb a b then strip_prefix p' s' else None
  | String _ _, "" => None
  end.

(** First and last character, when there is one. *)
Definition first_char (s : string) : option ascii := get 0 s.
Definition last_char (s : string) : option ascii := get (String.length s - 1) s.

(** Index of the first element satisfying [p]. *)
Fixpoint find_index {A} (p : A -> bool) (l : list A) : option nat :=
  match l with
  | [] => None
  | x :: r => if p x then Some 0 else option_map S (find_index p r)
  end.

(** Number of elements satisfying [p]. *)
Definition count {A} (p : A -> bool) (l : list A) : nat :=
  List.length (filter p l).

End Text.
Import Text.

(** ** Python values the script handles *)

Module Py.

(** A naive [datetime.datetime]. *)
Record datetime := {
  year : nat; month : nat; day : nat;
  hour : nat; minute : nat; second : nat; microsecond : nat
}.

Inductive value :=
| VStr (s : string)
| VDatetime (d : datetime).

Definition decimal (n : nat) : string :=
  NilEmpty.string_of_uint (Nat.to_uint n).

Fixpoint zeros (n : nat) : string :=
  match n with O => "" | S m => String "0"%char (zeros m) end.

(** ["%0<w>d" % n]. *)
Definition zfill (w n : nat) : string :=
  let d := decimal n in zeros (w - String.length d) ++ d.

(** [str(d)]: ISO format with a blank separator; the fraction is
    printed when it is not zero. *)
Definition datetime_str (d : datetime) : string :=
  zfill 4 (year d) ++ "-" ++ zfill 2 (month d) ++ "-" ++ zfill 2 (day d)
  ++ " " ++ zfill 2 (hour d) ++ ":" ++ zfill 2 (minute d) ++ ":"
  ++ zfill 2 (second d)
  ++ (if (microsecond d =? 0)%nat then ""
      else "." ++ zfill 6 (microsecond d)).

(** [str(v)], also what a replacement field of an f-string inserts. *)
Definition py_str (v : value) : string :=
  match v with
  | VStr s => s
  | VDatetime d => datetime_str d
  end.

Inductive exn :=
| SyntaxError
| NameError (name : string)
| ValueError (msg : string).

(** Local variables, latest binding first. *)
Definition locals := list (string * value).

Fixpoint lookup (x : string) (l : locals) : option value :=
  match l with
  | [] => None
  | (y, v) :: r => if x =? y then Some v else lookup x r
  end.

(** An f-string literal evaluated against the local variables.  Doubled
    braces stand for one brace; [{name}] inserts [str] of the variable;
    an unmatched brace is a syntax error.  [field] is [Some acc] while
    the characters of a replacement field are being read.  Fields are
    bare variable names, the only expressions the locals of this script
    can answer. *)
Fixpoint fstring (env : locals) (field : option string) (s : string)
  : exn + string :=
  match s with
  | "" =>
      match field with
      | None => inr ""
      | Some _ => inl SyntaxError
      end
  | String c r =>
      match field with
      | Some acc =>
          if Ascii.eqb c "}"%char then
            match lookup acc env with
            | None => inl (NameError acc)
            | Some v =>
                match fstring env None r with
                | inr t => inr (py_str v ++ t)
                | inl e => inl e
                end
            end
          else fstring env (Some (acc ++ String c "")) r
      | None =>
          if Ascii.eqb c "{"%char then
            match r with
            | String c2 r2 =>
                if Ascii.eqb c2 "{"%char then
                  match fstring env None r2 with
                  | inr t => inr (String c t)
                  | inl e => inl e
                  end
                else fstring env (Some "") r
            | "" => inl SyntaxError
            end
          else if Ascii.eqb c "}"%char then
            match r with
            | String c2 r2 =>
                if Ascii.eqb c2 "}"%char then
                  match fstring env None r2 with
                  | inr t => inr (String c t)
                  | inl e => inl e
                  end
                else inl SyntaxError
            | "" => inl SyntaxError
            end
          else
            match fstring env None r with
            | inr t => inr (String c t)
            | inl e => inl e
            end
      end
  end.

(** *** The process and the monad of Python code

    The process holds the wall clock and standard output.  Standard
    output is the sequence of bytes written so far; it takes every
    write.  A stream that can refuse a write is the subject of
    [Device] below. *)

Record World := { clock : datetime; stdout : string }.

Definition M (A : Type) : Type := World -> (exn + A) * World.

Definition ret {A} (x : A) : M A := fun w => (inr x, w).

Definition raise {A} (e : exn) : M A := fun w => (inl e, w).

Definition bind {A B} (m : M A) (k : A -> M B) : M B :=
  fun w =>
    match m w with
    | (inr x, w') => k x w'
    | (inl e, w') => (inl e, w')
    end.

Definition lift {A} (r : exn + A) : M A := fun w => (r, w).

(** [datetime.datetime.now()]. *)
Definition datetime_now : M datetime := fun w => (inr (clock w), w).

(** [print(v)]: [str(v)] and a newline go to standard output. *)
Definition print (v : value) : M unit :=
  fun w =>
    (inr tt, {| clock := clock w; stdout := stdout w ++ py_str v ++ newline |}).

End Py.
Import Py.

Declare Scope py_scope.
Delimit Scope py_scope with py.
Notation "x <- m ;; k" := (bind m (fun x => k))
  (at level 61, m at next level, right associativity) : py_scope.
Notation "m ;; k" := (bind m (fun _ => k))
  (at level 61, right associativity) : py_scope.
Open Scope py_scope.

(** ** The script *)

Module Demo.

(** The three f-string literals of [generate_sample_logs], character
    for character. *)
Definition java_literal : string :=
"2024-01-15 10:00:00 INFO  Starting UserService
2024-01-15 10:00:01 ERROR Exception in user registration
java.lang.RuntimeException: Database connection failed
    at com.example.UserService.registerUser(UserService.java:42)
    at com.example.UserController.signup(UserController.java:23)
    at java.base/java.lang.Thread.run(Thread.java:829)
Caused by: java.sql.SQLException: Connection timeout
    at com.mysql.jdbc.Driver.connect(Driver.java:115)
    ... 3 more
2024-01-15 10:00:02 INFO  Retrying user registration
2024-01-15 10:00:03 INFO  User registration successful".

Definition python_literal : string :=
"[2024-01-15 10:05:00] INFO: Processing user data
[2024-01-15 10:05:01] ERROR: Failed to process user data
Traceback (most recent call last):
  File " ++ dq ++ "/app/user_processor.py" ++ dq ++ ", line 25, in process_user
    result = validate_email(user.email)
  File " ++ dq ++ "/app/validators.py" ++ dq ++ ", line 15, in validate_email
    return regex.match(pattern, email)
AttributeError: 'NoneType' object has no attribute 'match'
[2024-01-15 10:05:02] INFO: Skipping invalid user record
[2024-01-15 10:05:03] INFO: Processing complete".

Definition config_literal : string :=
"=== DATABASE CONFIG ===
host: localhost
port: 5432
database: myapp
username: app_user
connection_pool: 10
---
=== REDIS CONFIG ===
host: redis.internal
port: 6379
database: 0
password: secret123
---
=== API CONFIG ===
base_url: https://api.example.com
timeout: 30
retries: 3".

(** [generate_sample_logs()]: the clock is read into [now], the three
    f-strings are evaluated in the scope built so far, and the tuple of
    the three results is returned. *)
Definition generate_sample_logs : M (list value) :=
  now <- datetime_now ;;
  let env := [("now", VDatetime now)] in
  java_logs <- lift (fstring env None java_literal) ;;
  let env := ("java_logs", VStr java_logs) :: env in
  python_logs <- lift (fstring env None python_literal) ;;
  let env := ("python_logs", VStr python_logs) :: env in
  config_logs <- lift (fstring env None config_literal) ;;
  ret [VStr java_logs; VStr python_logs; VStr config_logs].

(** The header lines that the script prints. *)
Definition java_header : string := "=== Java Application Logs ===".
Definition python_header : string := "=== Python Application Logs ===".
Definition config_header : string := "=== Configuration Sections ===".

(** [a, b, c = t]: a tuple of another length raises [ValueError]. *)
Definition unpack3 (t : list value) : M (value * value * value) :=
  match t with
  | [a; b; c] => ret (a, b, c)
  | _ => raise (ValueError "wrong number of values to unpack")
  end.

(** The body of [if __name__ == "__main__":]. *)
Definition main : M unit :=
  t <- generate_sample_logs ;;
  abc <- unpack3 t ;;
  let '(java_logs, python_logs, config_logs) := abc in
  print (VStr java_header) ;;
  print java_logs ;;
  print (VStr (newline ++ python_header)) ;;
  print python_logs ;;
  print (VStr (newline ++ config_header)) ;;
  print config_logs.

(** The module as a whole: the functions are defined and the guarded
    block runs when the file is the script being executed. *)
Definition module (name : string) : M unit :=
  if name =? "__main__" then main else ret tt.

(** The interpreter ends with status 0 when the module body completes
    and with status 1 on an uncaught exception. *)
Definition exit_status {A} (r : exn + A) : nat :=
  match r with
  | inr _ => 0
  | inl _ => 1
  end.

(** Running the file as a script in a process that starts at clock
    value [clk] with nothing written yet: the exit status and the
    bytes on standard output. *)
Definition run_script (clk : datetime) : nat * string :=
  let (r, w) := module "__main__" {| clock := clk; stdout := "" |} in
  (exit_status r, stdout w).

Definition script_output (clk : datetime) : string := snd (run_script clk).

(** The three strings a call returns, when it returns a triple of
    strings. *)
Definition returned_strings (r : exn + list value)
  : option (string * string * string) :=
  match r with
  | inr [VStr a; VStr b; VStr c] => Some (a, b, c)
  | _ => None
  end.

Definition samples (w : World) : option (string * string * string) :=
  returned_strings (fst (generate_sample_logs w)).

End Demo.
Import Demo.

(** ** Line shapes the properties speak of *)

Module Shape.

(** [search m s]: [m] accepts some suffix of [s], as [re.search] with a
    pattern that [m] matches at the start of its argument. *)
Fixpoint search (m : string -> bool) (s : string) : bool :=
  m s ||
  match s with
  | "" => false
  | String _ r => search m r
  end.

Definition nonempty (s : string) : bool := negb (s =? "").

(** One or more characters satisfying [p], then the rest. *)
Definition some_of (p : ascii -> bool) (s : string) : option string :=
  let (a, r) := span p s in if nonempty a then Some r else None.

Definition is_caused_by_line (l : string) : bool := contains "Caused by:" l.

(** [... <digits> more] at the start of [s], with what follows. *)
Definition elision_at (s : string) : option string :=
  match strip_prefix "... " s with
  | Some r =>
      match some_of is_digit r with
      | Some r' => strip_prefix " more" r'
      | None => None
      end
  | None => None
  end.

(** The whole line, its indentation apart, is an elision marker. *)
Definition is_elision_line (l : string) : bool :=
  match elision_at (lstrip l) with
  | Some r => r =? ""
  | None => false
  end.

(** The marker occurs somewhere in the line. *)
Definition has_elision (l : string) : bool :=
  search (fun s => match elision_at s with Some _ => true | None => false end) l.

Definition traceback_header : string := "Traceback (most recent call last):".

(** [  File "<path>", line <n>, in <function>]. *)
Definition is_file_line (l : string) : bool :=
  match strip_prefix ("  File " ++ dq) l with
  | Some r =>
      match some_of (fun c => negb (Ascii.eqb c "034"%char)) r with
      | Some r1 =>
          match strip_prefix (dq ++ ", line ") r1 with
          | Some r2 =>
              match some_of is_digit r2 with
              | Some r3 =>
                  match strip_prefix ", in " r3 with
                  | Some r4 =>
                      match some_of is_word r4 with
                      | Some r5 => r5 =? ""
                      | None => false
                      end
                  | None => false
                  end
              | None => false
              end
          | None => false
          end
      | None => false
      end
  | None => false
  end.

(** [b] is a source line under the [File] line [a]: not blank and
    indented further. *)
Definition is_source_under (a b : string) : bool :=
  (indent a <? indent b)%nat && nonempty (lstrip b).

(** Number of [File] lines immediately followed by their source line. *)
Fixpoint frame_pairs (ls : list string) : nat :=
  match ls with
  | a :: r =>
      match r with
      | b :: _ =>
          ((if is_file_line a && is_source_under a b then 1 else 0)
           + frame_pairs r)%nat
      | [] => 0%nat
      end
  | [] => 0%nat
  end.

(** [=== <NAME> CONFIG ===], the name in capitals. *)
Definition is_config_banner (l : string) : bool :=
  match strip_prefix "=== " l with
  | Some r =>
      match some_of is_upper r with
      | Some r' => r' =? " CONFIG ==="
      | None => false
      end
  | None => false
  end.

Definition is_delimiter (l : string) : bool := l =? "---".

(** [key: value]. *)
Definition is_kv_line (l : string) : bool :=
  match some_of is_word l with
  | Some r =>
      match strip_prefix ": " r with
      | Some v => nonempty v
      | None => false
      end
  | None => false
  end.

(** The groups of a list between the elements satisfying [p]. *)
Fixpoint split_on {A} (p : A -> bool) (l : list A) : list (list A) :=
  match l with
  | [] => [[]]
  | x :: r =>
      match split_on p r with
      | [] => [[x]]
      | g :: gs => if p x then [] :: g :: gs else (x :: g) :: gs
      end
  end.

(** A configuration section: its banner, then key: value lines, at
    least one. *)
Definition is_section (g : list string) : bool :=
  match g with
  | b :: kv :: kvs => is_config_banner b && forallb is_kv_line (kv :: kvs)
  | _ => false
  end.

(** The shape shared by the headers that [__main__] prints and the
    banners of the configuration text. *)
Definition is_triple_eq_line (l : string) : bool :=
  startswith "=== " l && endswith " ===" l.

(** No brace, hence no replacement field and no escape. *)
Fixpoint brace_free (s : string) : bool :=
  match s with
  | "" => true
  | String c r =>
      negb (Ascii.eqb c "{"%char) && negb (Ascii.eqb c "}"%char)
      && brace_free r
  end.


(** The text neither starts nor ends with a newline, and its first and
    last characters are those of its first and last line, both of
    which have content. *)
Definition ends_on_content (s : string) : Prop :=
  startswith newline s = false /\ endswith newline s = false /\
  exists a z x y,
    hd_error (splitlines s) = Some a /\ last (splitlines s) "" = z /\
    first_char a = Some x /\ first_char s = Some x /\
    last_char z = Some y /\ last_char s = Some y.

(** The bytes the guarded block is to write, given the three texts. *)
Definition expected_output : string :=
  java_header ++ newline ++ java_literal ++ newline
  ++ newline ++ python_header ++ newline ++ python_literal ++ newline
  ++ newline ++ config_header ++ newline ++ config_literal ++ newline.

End Shape.
Import Shape.

(** ** Entries of a log, keys of a section, plain text *)

Module Entries.

(** Exactly [n] digits at the start of [s], then the rest. *)
Fixpoint take_digits (n : nat) (s : string) : option string :=
  match n with
  | O => Some s
  | S m =>
      match s with
      | String c r => if is_digit c then take_digits m r else None
      | "" => None
      end
  end.

Definition and_then {A B} (o : option A) (k : A -> option B) : option B :=
  match o with
  | Some x => k x
  | None => None
  end.

(** [dddd-dd-dd dd:dd:dd] at the start of [s], then the rest. *)
Definition timestamp_at (s : string) : option string :=
  and_then (take_digits 4 s) (fun s =>
  and_then (strip_prefix "-" s) (fun s =>
  and_then (take_digits 2 s) (fun s =>
  and_then (strip_prefix "-" s) (fun s =>
  and_then (take_digits 2 s) (fun s =>
  and_then (strip_prefix " " s) (fun s =>
  and_then (take_digits 2 s) (fun s =>
  and_then (strip_prefix ":" s) (fun s =>
  and_then (take_digits 2 s) (fun s =>
  and_then (strip_prefix ":" s) (fun s =>
  take_digits 2 s)))))))))).

(** A line that opens an entry of the Java log: a timestamp and a
    blank; of the Python log: a timestamp in brackets and a blank. *)
Definition is_java_entry (l : string) : bool :=
  match timestamp_at l with
  | Some r => startswith " " r
  | None => false
  end.

Definition is_python_entry (l : string) : bool :=
  match and_then (strip_prefix "[" l) timestamp_at with
  | Some r => startswith "] " r
  | None => false
  end.

(** The timestamp text of an entry line of either log. *)
Definition java_time (l : string) : string := substring 0 19 l.
Definition python_time (l : string) : string := substring 1 19 l.

(** The lines grouped into entries: a line accepted by [is_start]
    opens an entry, any other line continues the entry before it
    (lines before the first start line form a group of their own). *)
Fixpoint entries (is_start : string -> bool) (ls : list string)
  : list (list string) :=
  match ls with
  | [] => []
  | l :: r =>
      match entries is_start r with
      | (x :: g) :: gs =>
          if is_start x then [l] :: (x :: g) :: gs else (l :: x :: g) :: gs
      | _ => [[l]]
      end
  end.

(** Whether an entry opens with a line containing [level], and how
    many lines it has. *)
Definition entry_shape (level : string) (g : list string) : bool * nat :=
  (existsb (contains level) (firstn 1 g), List.length g).

(** Strictly increasing in the order of strings, which on timestamps
    of one fixed width is the order of time. *)
Fixpoint increasing (ts : list string) : bool :=
  match ts with
  | a :: r =>
      match r with
      | b :: _ => String.ltb a b && increasing r
      | [] => true
      end
  | [] => true
  end.

(** The key of a key: value line. *)
Definition key_of (l : string) : string := fst (span is_word l).

(** No string occurs twice. *)
Fixpoint distinct (l : list string) : bool :=
  match l with
  | [] => true
  | x :: r => negb (existsb (String.eqb x) r) && distinct r
  end.

(** The keys of a section: those of the lines after its banner. *)
Definition section_keys (g : list string) : list string :=
  List.map key_of (tl g).

Definition is_printable (c : ascii) : bool :=
  let n := nat_of_ascii c in ((32 <=? n) && (n <=? 126))%nat.

Fixpoint all_chars (p : ascii -> bool) (s : string) : bool :=
  match s with
  | "" => true
  | String c r => p c && all_chars p r
  end.

(** A line of printable ASCII characters that does not end in a
    blank. *)
Definition is_tidy_line (l : string) : bool :=
  all_chars is_printable l && negb (endswith " " l).

End Entries.
Import Entries.

(** ** The script on a standard output that can refuse a write

    [Py.print] appends to a stream that takes every byte.  Here the
    descriptor behind [sys.stdout] either accepts every write or
    refuses every write (a closed pipe, a full device), and the stream
    either hands each [print] to the descriptor at once (unbuffered or
    line-buffered) or keeps the text until the interpreter flushes it
    at exit (block-buffered; the whole output of the script is far
    below the size of the buffer). *)

Module Device.

Inductive buffering := Immediate | AtExit.

Record Stream := {
  policy : buffering;
  writable : bool;
  pending : string;
  delivered : string
}.

Record Process := { wall_clock : datetime; sys_stdout : Stream }.

(** An exception of the code itself, or the [OSError] of a refused
    write. *)
Inductive error :=
| Uncaught (e : exn)
| OSError.

Definition IO (A : Type) : Type := Process -> (error + A) * Process.

Definition ret {A} (x : A) : IO A := fun p => (inr x, p).

Definition bind {A B} (m : IO A) (k : A -> IO B) : IO B :=
  fun p =>
    match m p with
    | (inr x, p') => k x p'
    | (inl e, p') => (inl e, p')
    end.

(** A write of [t] to the descriptor. *)
Definition os_write (t : string) (s : Stream) : option Stream :=
  if writable s then
    Some {| policy := policy s; writable := writable s;
            pending := pending s; delivered := delivered s ++ t |}
  else None.

(** [sys.stdout.flush()]: the pending text goes to the descriptor;
    with nothing pending nothing is written. *)
Definition flush (s : Stream) : option Stream :=
  if pending s =? "" then Some s
  else
    match os_write (pending s) s with
    | Some s' =>
        Some {| policy := policy s'; writable := writable s';
                pending := ""; delivered := delivered s' |}
    | None => None
    end.

(** [sys.stdout.write(t)]. *)
Definition stream_write (t : string) (s : Stream) : option Stream :=
  let s' := {| policy := policy s; writable := writable s;
               pending := pending s ++ t; delivered := delivered s |} in
  match policy s with
  | AtExit => Some s'
  | Immediate => flush s'
  end.

(** [print(v)]: a refused write raises [OSError]. *)
Definition print (v : value) : IO unit :=
  fun p =>
    match stream_write (py_str v ++ newline) (sys_stdout p) with
    | Some s => (inr tt, {| wall_clock := wall_clock p; sys_stdout := s |})
    | None => (inl OSError, p)
    end.

(** Code of the plain model run in the process: it sees the clock of
    the process, and what it writes, if anything, goes through the
    stream. *)
Definition of_py {A} (m : M A) : IO A :=
  fun p =>
    let (r, w) := m {| clock := wall_clock p; stdout := "" |} in
    match (if stdout w =? "" then Some (sys_stdout p)
           else stream_write (stdout w) (sys_stdout p)) with
    | Some s =>
        (match r with
         | inr x => inr x
         | inl e => inl (Uncaught e)
         end,
         {| wall_clock := clock w; sys_stdout := s |})
    | None => (inl OSError, p)
    end.

Declare Scope io_scope.
Delimit Scope io_scope with io.
Notation "x <- m ;; k" := (bind m (fun x => k))
  (at level 61, m at next level, right associativity) : io_scope.
Notation "m ;; k" := (bind m (fun _ => k))
  (at level 61, right associativity) : io_scope.
Local Open Scope io_scope.

(** The body of [if __name__ == "__main__":]. *)
Definition main : IO unit :=
  t <- of_py generate_sample_logs ;;
  abc <- of_py (unpack3 t) ;;
  let '(java_logs, python_logs, config_logs) := abc in
  print (VStr java_header) ;;
  print java_logs ;;
  print (VStr (newline ++ python_header)) ;;
  print python_logs ;;
  print (VStr (newline ++ config_header)) ;;
  print config_logs.

Definition module (name : string) : IO unit :=
  if name =? "__main__" then main else ret tt.

(** The end of the interpreter: standard output is flushed; a flush
    that fails gives status 120, otherwise the status is 0 after a
    body that completed and 1 after an uncaught exception. *)
Definition finalize (body : error + unit) (s : Stream) : nat * Stream :=
  match flush s with
  | Some s' => (match body with inr _ => 0 | inl _ => 1 end, s')
  | None => (120, s)
  end.

(** The process a fresh interpreter starts in. *)
Definition fresh (clk : datetime) (pol : buffering) (ok : bool) : Process :=
  {| wall_clock := clk;
     sys_stdout := {| policy := pol; writable := ok;
                      pending := ""; delivered := "" |} |}.

(** Running the file as a script: the exit status and the bytes that
    reached the descriptor. *)
Definition run_script (clk : datetime) (pol : buffering) (ok : bool)
  : nat * string :=
  let (r, p) := module "__main__" (fresh clk pol ok) in
  let (status, s) := finalize r (sys_stdout p) in
  (status, delivered s).

End Device.

(** Split the conjunctions of the goal and settle the closed
    equations among them by evaluation. *)
Ltac conjuncts := repeat match goal with |- _ /\ _ => split end.
Ltac evaluate := vm_compute; reflexivity.


(** ** Facts about the text operations *)

Section TextFacts.

Lemma append_assoc (a b c : string) : (a ++ b) ++ c = a ++ (b ++ c).
Proof.
  induction a as [|x a IH]; simpl; [reflexivity|].
  now rewrite IH.
Qed.

Lemma append_nil_r (a : string) : a ++ "" = a.
Proof.
  induction a as [|x a IH]; simpl; [reflexivity|].
  now rewrite IH.
Qed.

Lemma split_nl_not_nil (s : string) : split_nl s <> [].
Proof.
  destruct s as [|c r]; simpl; [discriminate|].
  destruct (split_nl r); [discriminate|].
  destruct (Ascii.eqb c nl); discriminate.
Qed.

(** Joining the pieces with newlines undoes the split. *)
Lemma split_nl_join (s : string) : String.concat newline (split_nl s) = s.
Proof.
  induction s as [|c r IH]; [reflexivity|].
  simpl split_nl.
  destruct (split_nl r) as [|l ls] eqn:E.
  - now destruct (split_nl_not_nil r).
  - destruct (Ascii.eqb_spec c nl) as [->|_].
    + change (String.concat newline ("" :: l :: ls))
        with (String nl (String.concat newline (l :: ls))).
      now rewrite IH.
    + destruct ls as [|l' ls'].
      * simpl in *. now rewrite IH.
      * change (String.concat newline (String c l :: l' :: ls'))
          with (String c (String.concat newline (l :: l' :: ls'))).
        now rewrite IH.
Qed.

Lemma prefix_nil (s : string) : prefix "" s = true.
Proof. now destruct s. Qed.

Lemma prefix_cons (a b : ascii) (p s : string) :
  prefix (String a p) (String b s)
  = if Ascii.eqb a b then prefix p s else false.
Proof.
  change (prefix (String a p) (String b s))
    with (if ascii_dec a b then prefix p s else false).
  destruct (ascii_dec a b) as [->|H].
  - now rewrite Ascii.eqb_refl.
  - now destruct (Ascii.eqb_spec a b).
Qed.

Lemma contains_cons (sub : string) (c : ascii) (s : string) :
  contains sub (String c s) = prefix sub (String c s) || contains sub s.
Proof. reflexivity. Qed.

Lemma prefix_spec (p s : string) :
  prefix p s = true <-> exists r, s = p ++ r.
Proof.
  revert s; induction p as [|a p IH]; intros s.
  - rewrite prefix_nil. split; [now exists s|reflexivity].
  - destruct s as [|b s].
    + split; [discriminate|intros [r Hr]; discriminate].
    + rewrite prefix_cons. destruct (Ascii.eqb_spec a b) as [->|Hab].
      * rewrite IH. split; intros [r Hr]; exists r.
        -- simpl. now rewrite Hr.
        -- simpl in Hr. now injection Hr.
      * split; [discriminate|].
        intros [r Hr]. simpl in Hr. injection Hr as Hb _. now destruct Hab.
Qed.

(** [contains] is the substring relation. *)
Lemma contains_spec (sub s : string) :
  contains sub s = true <-> exists pre post, s = pre ++ sub ++ post.
Proof.
  induction s as [|c s IH].
  - cbn [contains]. rewrite orb_false_r, prefix_spec. split.
    + intros [r Hr]. now exists "", r.
    + intros (pre & post & H). destruct pre; [now exists post|discriminate].
  - rewrite contains_cons, orb_true_iff, prefix_spec, IH. split.
    + intros [[r Hr]|(pre & post & H)].
      * now exists "", r.
      * exists (String c pre), post. simpl. now rewrite H.
    + intros (pre & post & H). destruct pre as [|x pre].
      * left. now exists post.
      * right. exists pre, post. simpl in H. now injection H.
Qed.

(** No piece of the split holds a newline. *)
Lemma split_nl_no_newline (s : string) :
  Forall (fun l => contains newline l = false) (split_nl s).
Proof.
  induction s as [|c r IH]; simpl.
  - constructor; [reflexivity|constructor].
  - destruct (split_nl r) as [|l ls] eqn:E0.
    + now destruct (split_nl_not_nil r).
    + inversion IH as [|? ? Hl Hls]; subst.
      destruct (Ascii.eqb c nl) eqn:E.
      * constructor; [reflexivity|now constructor].
      * constructor; [|assumption].
        rewrite contains_cons, Hl, orb_false_r.
        unfold newline. rewrite prefix_cons, Ascii.eqb_sym, E. reflexivity.
Qed.

Lemma strip_prefix_spec (p s r : string) :
  strip_prefix p s = Some r <-> s = p ++ r.
Proof.
  revert s; induction p as [|a p IH]; intros s; simpl.
  - split; [now intros [= ->]|now intros ->].
  - destruct s as [|b s].
    + split; discriminate.
    + destruct (Ascii.eqb_spec a b) as [->|Hab].
      * rewrite IH. split; [now intros ->|now intros [= ->]].
      * split; [discriminate|]. intros [= Hb _]. now destruct Hab.
Qed.

Lemma find_index_sound {A} (p : A -> bool) (l : list A) (i : nat) :
  find_index p l = Some i -> exists x, nth_error l i = Some x /\ p x = true.
Proof.
  revert i; induction l as [|y l IH]; intros i; simpl; [discriminate|].
  destruct (p y) eqn:Hy.
  - intros [= <-]. now exists y.
  - destruct (find_index p l) as [j|]; [|discriminate].
    intros [= <-]. now apply IH.
Qed.


End TextFacts.

(** ** Facts about the Python fragment *)

Section PyFacts.

Lemma bind_ret_l {A B} (x : A) (k : A -> M B) (w : World) :
  bind (ret x) k w = k x w.
Proof. reflexivity. Qed.

Lemma bind_raise {A B} (e : exn) (k : A -> M B) (w : World) :
  bind (raise e) k w = (inl e, w).
Proof. reflexivity. Qed.

Lemma bind_assoc {A B C} (m : M A) (k : A -> M B) (h : B -> M C) (w : World) :
  bind (bind m k) h w = bind m (fun x => bind (k x) h) w.
Proof.
  unfold bind. destruct (m w) as [[e|x] w']; reflexivity.
Qed.

(** A literal without braces evaluates to itself whatever the scope
    holds. *)
Lemma fstring_brace_free (env : locals) (s : string) :
  brace_free s = true -> fstring env None s = inr s.
Proof.
  induction s as [|c r IH]; simpl; intros H; [reflexivity|].
  apply andb_true_iff in H as [H Hr].
  apply andb_true_iff in H as [H1 H2].
  apply negb_true_iff in H1, H2.
  now rewrite H1, H2, (IH Hr).
Qed.

Lemma literals_brace_free :
  brace_free java_literal = true /\ brace_free python_literal = true
  /\ brace_free config_literal = true.
Proof. now vm_compute. Qed.

(** The call returns the three literals and leaves the process as it
    found it. *)
Lemma generate_sample_logs_spec (w : World) :
  generate_sample_logs w
  = (inr [VStr java_literal; VStr python_literal; VStr config_literal], w).
Proof.
  destruct literals_brace_free as (Hj & Hp & Hc).
  cbv beta iota zeta delta [generate_sample_logs bind datetime_now lift ret].
  rewrite (fstring_brace_free _ _ Hj). cbv beta iota.
  rewrite (fstring_brace_free _ _ Hp). cbv beta iota.
  rewrite (fstring_brace_free _ _ Hc). reflexivity.
Qed.

(** The literals carry timestamps of their own, so the text of a clock
    reading can be found in one of them when the clock happens to
    stand at such a timestamp; the returned strings are the same at
    every other reading. *)
Remark literal_timestamp_is_a_clock_text :
  contains
    (datetime_str {| year := 2024; month := 1; day := 15; hour := 10;
                     minute := 0; second := 0; microsecond := 0 |})
    java_literal = true.
Proof. evaluate. Qed.

Lemma samples_spec (w : World) :
  samples w = Some (java_literal, python_literal, config_literal).
Proof.
  unfold samples. now rewrite generate_sample_logs_spec.
Qed.

Lemma main_spec (w : World) :
  main w
  = (inr tt, {| clock := clock w; stdout := stdout w ++ expected_output |}).
Proof.
  unfold main, bind at 1.
  rewrite generate_sample_logs_spec.
  cbv beta iota delta [unpack3 bind ret print py_str clock stdout].
  unfold expected_output, java_header, python_header, config_header.
  now rewrite !append_assoc.
Qed.

Lemma run_script_spec (clk : datetime) :
  run_script clk = (0, expected_output).
Proof.
  unfold run_script. change (module "__main__") with main.
  now rewrite main_spec.
Qed.

Lemma script_output_spec (clk : datetime) :
  script_output clk = expected_output.
Proof.
  unfold script_output. now rewrite run_script_spec.
Qed.

End PyFacts.

(** ** Facts about the script on a stream that can refuse *)

Section DeviceFacts.

(** The call needs nothing of standard output: it returns the three
    literals in every process. *)
Lemma device_generate_sample_logs (p : Device.Process) :
  Device.of_py generate_sample_logs p
  = (inr [VStr java_literal; VStr python_literal; VStr config_literal], p).
Proof.
  unfold Device.of_py. rewrite generate_sample_logs_spec.
  cbn [stdout clock]. now destruct p.
Qed.

(** An accepting stream, buffered or not, delivers what the plain
    model writes, and the status is the plain model's. *)
Lemma device_run_accepting (clk : datetime) (pol : Device.buffering) :
  Device.run_script clk pol true = run_script clk.
Proof.
  rewrite run_script_spec.
  unfold Device.run_script, Device.module, Device.main.
  cbn [String.eqb Ascii.eqb Bool.eqb]. unfold Device.bind at 1.
  rewrite device_generate_sample_logs.
  destruct pol; evaluate.
Qed.

(** A refusing stream delivers nothing: unbuffered, the first [print]
    raises and the status is 1; buffered, the body completes and the
    flush at exit fails with status 120. *)
Lemma device_run_refusing (clk : datetime) (pol : Device.buffering) :
  Device.run_script clk pol false
  = (match pol with Device.Immediate => 1 | Device.AtExit => 120 end, "").
Proof.
  unfold Device.run_script, Device.module, Device.main.
  cbn [String.eqb Ascii.eqb Bool.eqb]. unfold Device.bind at 1.
  rewrite device_generate_sample_logs.
  destruct pol; evaluate.
Qed.

End DeviceFacts.

(** ** Properties of [generate_sample_logs] and of the script *)

Section Claims.

(** C1. Determinism and clock noninterference: any two calls of
    [generate_sample_logs], in whatever process state and at whatever
    clock value, return the same three strings; these are the three
    literals, which hold no replacement field, so that no scope (and
    no value of [now] in it) changes what they evaluate to. *)
Theorem C1_samples_deterministic (w1 w2 : World) :
  fst (generate_sample_logs w1) = fst (generate_sample_logs w2)
  /\ samples w1 = samples w2
  /\ samples w1 = Some (java_literal, python_literal, config_literal)
  /\ forall env : locals,
       fstring env None java_literal = inr java_literal
       /\ fstring env None python_literal = inr python_literal
       /\ fstring env None config_literal = inr config_literal.
Proof.
  rewrite !samples_spec, !generate_sample_logs_spec.
  conjuncts; try reflexivity.
  intros env. conjuncts; apply fstring_brace_free; apply literals_brace_free.
Qed.


(** C3. The Java text has exactly one line containing [Caused by:] and
    exactly one elision line [... <digits> more], whether the pattern
    is matched against the whole line after its indentation or sought
    anywhere in the line. *)
Theorem C3_java_caused_by_and_elision (w : World) :
  exists j p c,
    samples w = Some (j, p, c)
    /\ count is_caused_by_line (splitlines j) = 1
    /\ count is_elision_line (splitlines j) = 1
    /\ count has_elision (splitlines j) = 1.
Proof.
  exists java_literal, python_literal, config_literal.
  rewrite samples_spec. conjuncts; [reflexivity|evaluate..].
Qed.

(** C4. The Python text has exactly one line equal to the traceback
    header and at least two frame pairs, a [File] line immediately
    followed by a more-indented source line. *)
Theorem C4_python_traceback_frames (w : World) :
  exists j p c,
    samples w = Some (j, p, c)
    /\ count (String.eqb traceback_header) (splitlines p) = 1
    /\ 2 <= frame_pairs (splitlines p).
Proof.
  exists java_literal, python_literal, config_literal.
  rewrite samples_spec. conjuncts; [reflexivity|evaluate..].
Qed.

(** C5. The configuration text has exactly three banner lines
    [=== <NAME> CONFIG ===] and exactly two [---] lines, and the two
    delimiters cut the text into three sections, each a banner
    followed by its key: value lines. *)
Theorem C5_config_banners_and_delimiters (w : World) :
  exists j p c,
    samples w = Some (j, p, c)
    /\ count is_config_banner (splitlines c) = 3
    /\ count is_delimiter (splitlines c) = 2
    /\ exists s1 s2 s3,
         split_on is_delimiter (splitlines c) = [s1; s2; s3]
         /\ is_section s1 = true /\ is_section s2 = true
         /\ is_section s3 = true.
Proof.
  exists java_literal, python_literal, config_literal.
  rewrite samples_spec. conjuncts; [reflexivity|evaluate|evaluate|].
  do 3 eexists. conjuncts; [evaluate|evaluate..].
Qed.



(** C7. The output of the script holds the banners [DATABASE CONFIG],
    [REDIS CONFIG] and [API CONFIG] in this order, each on one line
    only, and the line after each banner is a key: value line. *)
Theorem C7_config_banner_order (clk : datetime) :
  let ls := splitlines (script_output clk) in
  exists i j k,
    i < j /\ j < k
    /\ nth_error ls i = Some "=== DATABASE CONFIG ==="
    /\ nth_error ls j = Some "=== REDIS CONFIG ==="
    /\ nth_error ls k = Some "=== API CONFIG ==="
    /\ count (contains "DATABASE CONFIG") ls = 1
    /\ count (contains "REDIS CONFIG") ls = 1
    /\ count (contains "API CONFIG") ls = 1
    /\ (exists l, nth_error ls (S i) = Some l /\ is_kv_line l = true)
    /\ (exists l, nth_error ls (S j) = Some l /\ is_kv_line l = true)
    /\ (exists l, nth_error ls (S k) = Some l /\ is_kv_line l = true).
Proof.
  intros ls; subst ls. rewrite script_output_spec.
  exists 26, 33, 39.
  conjuncts; try lia; try evaluate; eexists; split; evaluate.
Qed.

(** C8. A call of [generate_sample_logs] returns a value, never an
    exception, and leaves the process untouched, also in a process
    whose standard output refuses writes; run as a script on a
    standard output that accepts the writes, the program delivers its
    text and ends with exit status 0, whether the stream is buffered
    or not. *)
Theorem C8_no_failure_on_accepting_stdout
  (w : World) (p : Device.Process) (clk : datetime) (pol : Device.buffering) :
  (exists t, generate_sample_logs w = (inr t, w))
  /\ (exists t, Device.of_py generate_sample_logs p = (inr t, p))
  /\ Device.run_script clk pol true = (0, script_output clk).
Proof.
  split; [eexists; apply generate_sample_logs_spec|].
  split; [eexists; apply device_generate_sample_logs|].
  now rewrite device_run_accepting, run_script_spec, script_output_spec.
Qed.

(** On a standard output that refuses writes the exit status is not 0:
    it is 1 when the first [print] raises, and 120 when the text is
    held back and the flush at exit fails. *)
Lemma C8_exit_status_not_always_zero :
  Device.run_script
    {| year := 2024; month := 1; day := 15; hour := 10; minute := 0;
       second := 0; microsecond := 0 |} Device.Immediate false = (1, "")
  /\ Device.run_script
       {| year := 2024; month := 1; day := 15; hour := 10; minute := 0;
          second := 0; microsecond := 0 |} Device.AtExit false = (120, "")
  /\ fst (Device.run_script
            {| year := 2024; month := 1; day := 15; hour := 10; minute := 0;
               second := 0; microsecond := 0 |} Device.Immediate false) <> 0.
Proof.
  conjuncts; [evaluate|evaluate|].
  rewrite device_run_refusing. discriminate.
Qed.

(** C9. Each of the three returned strings neither begins nor ends
    with a newline: it starts with the first character of its first
    line and ends with the last character of its last line. *)
Theorem C9_no_leading_or_trailing_newline (w : World) :
  exists j p c,
    samples w = Some (j, p, c)
    /\ ends_on_content j /\ ends_on_content p /\ ends_on_content c.
Proof.
  exists java_literal, python_literal, config_literal.
  rewrite samples_spec. unfold ends_on_content.
  conjuncts; try reflexivity; try evaluate;
    do 4 eexists; conjuncts; evaluate.
Qed.

(** C10. In the output of the script exactly six lines start with
    [=== ] and end with [ ===]: the three headers that [__main__]
    prints, then the three banners of the configuration text. *)
Theorem C10_six_triple_eq_lines (clk : datetime) :
  exists j p c,
    samples {| clock := clk; stdout := "" |} = Some (j, p, c)
    /\ count is_triple_eq_line (splitlines (script_output clk)) = 6
    /\ filter is_triple_eq_line (splitlines (script_output clk))
       = ([java_header; python_header; config_header]
          ++ filter is_config_banner (splitlines c))%list
    /\ List.length (filter is_config_banner (splitlines c)) = 3
    /\ filter is_triple_eq_line (splitlines j) = []
    /\ filter is_triple_eq_line (splitlines p) = [].
Proof.
  exists java_literal, python_literal, config_literal.
  rewrite samples_spec, script_output_spec.
  conjuncts; [reflexivity|evaluate..].
Qed.

End Claims.

(** ** Facts about the grouping into entries *)

Section EntryFacts.

Variable is_start : string -> bool.

Lemma entries_no_empty (ls : list string) :
  Forall (fun g => g <> []) (entries is_start ls).
Proof.
  induction ls as [|l r IH]; simpl; [constructor|].
  destruct (entries is_start r) as [|[|x g] gs].
  - constructor; [discriminate|constructor].
  - constructor; [discriminate|constructor].
  - destruct (is_start x).
    + constructor; [discriminate|exact IH].
    + inversion IH; subst. constructor; [discriminate|assumption].
Qed.

(** Grouping loses no line and keeps the order. *)
Lemma entries_concat (ls : list string) :
  List.concat (entries is_start ls) = ls.
Proof.
  induction ls as [|l r IH]; simpl; [reflexivity|].
  pose proof (entries_no_empty r) as Hne.
  destruct (entries is_start r) as [|[|x g] gs].
  - simpl in *. now rewrite <- IH.
  - inversion Hne as [|? ? Hg _]; subst. now destruct Hg.
  - destruct (is_start x); simpl in *; now rewrite <- IH.
Qed.

(** Within an entry only the first line can be a start line. *)
Lemma entries_continuations (ls : list string) :
  Forall (fun g => forallb (fun l => negb (is_start l)) (tl g) = true)
         (entries is_start ls).
Proof.
  induction ls as [|l r IH]; simpl; [constructor|].
  destruct (entries is_start r) as [|[|x g] gs].
  - constructor; [reflexivity|constructor].
  - constructor; [reflexivity|constructor].
  - destruct (is_start x) eqn:Ex.
    + constructor; [reflexivity|exact IH].
    + inversion IH as [|? ? Hg Hgs]; subst. constructor; [|assumption].
      simpl in *. now rewrite Ex, Hg.
Qed.

End EntryFacts.

(** ** Further properties of the script *)

Section Further.

(** X3. The Java text is four entries, each opened by a timestamped
    line; only the ERROR entry has continuation lines, the seven lines
    of the stack trace, so that it spans eight lines. *)
Theorem X3_java_entries (w : World) :
  exists j p c,
    samples w = Some (j, p, c)
    /\ count is_java_entry (splitlines j) = 4
    /\ hd_error (List.map is_java_entry (splitlines j)) = Some true
    /\ List.map (entry_shape " ERROR ") (entries is_java_entry (splitlines j))
       = [(false, 1); (true, 8); (false, 1); (false, 1)].
Proof.
  exists java_literal, python_literal, config_literal.
  rewrite samples_spec. conjuncts; [reflexivity|evaluate..].
Qed.

(** X4. The Python text is four entries, each opened by a line with a
    bracketed timestamp; only the ERROR entry has continuation lines:
    the traceback header comes first among them and the
    [AttributeError] line last, before the two closing entries. *)
Theorem X4_python_entries (w : World) :
  exists j p c,
    samples w = Some (j, p, c)
    /\ count is_python_entry (splitlines p) = 4
    /\ hd_error (List.map is_python_entry (splitlines p)) = Some true
    /\ List.map (entry_shape "] ERROR: ")
         (entries is_python_entry (splitlines p))
       = [(false, 1); (true, 7); (false, 1); (false, 1)]
    /\ exists e,
         nth_error (entries is_python_entry (splitlines p)) 1 = Some e
         /\ nth_error e 1 = Some traceback_header
         /\ last e ""
            = "AttributeError: 'NoneType' object has no attribute 'match'".
Proof.
  exists java_literal, python_literal, config_literal.
  rewrite samples_spec. conjuncts; [reflexivity|evaluate..|].
  eexists. conjuncts; evaluate.
Qed.

(** X5. Within each section of the configuration text every key
    occurs once, but keys are shared between sections ([host], [port]
    and [database] occur in two), so the keys of the whole text are
    not distinct. *)
Theorem X5_config_keys (w : World) :
  exists j p c,
    samples w = Some (j, p, c)
    /\ forallb (fun g => distinct (section_keys g))
         (split_on is_delimiter (splitlines c)) = true
    /\ distinct (List.map key_of (filter is_kv_line (splitlines c))) = false
    /\ List.map section_keys (split_on is_delimiter (splitlines c))
       = [["host"; "port"; "database"; "username"; "connection_pool"];
          ["host"; "port"; "database"; "password"];
          ["base_url"; "timeout"; "retries"]].
Proof.
  exists java_literal, python_literal, config_literal.
  rewrite samples_spec. conjuncts; [reflexivity|evaluate..].
Qed.

(** X6. In the Java text and in the Python text the timestamps of the
    entries strictly increase from one entry to the next. *)
Theorem X6_timestamps_increase (w : World) :
  exists j p c,
    samples w = Some (j, p, c)
    /\ increasing (List.map java_time (filter is_java_entry (splitlines j)))
       = true
    /\ increasing
         (List.map python_time (filter is_python_entry (splitlines p)))
       = true
    /\ List.length (filter is_java_entry (splitlines j)) = 4
    /\ List.length (filter is_python_entry (splitlines p)) = 4.
Proof.
  exists java_literal, python_literal, config_literal.
  rewrite samples_spec. conjuncts; [reflexivity|evaluate..].
Qed.

(** X7. Every line the script writes is printable ASCII without a
    trailing blank, and the output ends with one newline, not with a
    blank line. *)
Theorem X7_output_is_tidy (clk : datetime) :
  forallb is_tidy_line (splitlines (script_output clk)) = true
  /\ endswith newline (script_output clk) = true
  /\ endswith (newline ++ newline) (script_output clk) = false
  /\ List.length (splitlines (script_output clk)) = 43.
Proof.
  rewrite script_output_spec. conjuncts; evaluate.
Qed.

End Further.
